(** * Component 1: basic Gemini connection

    A shallow embedding of [component_1_basic_connection/basic_connection.py]
    and [component_1_basic_connection/check_models.py].

    The two scripts are straight-line sequences of console prints and calls
    to the [google.generativeai] client.  A run is modelled as the list of
    events it performs (every [print], every call into the client) together
    with its outcome: a returned value or a raised exception.  The answers of
    the outside world (the process environment, [genai.list_models],
    [generate_content]) are collected in a [Provider] record. *)

From Stdlib Require Import String List Bool Arith Lia Permutation DecimalString.
Import ListNotations.
Open Scope string_scope.

(** ** Python values used by the scripts *)

(** ["\n"] *)
Definition nl : string := String (Ascii.ascii_of_nat 10) EmptyString.

(** [s * n] on a string. *)
Fixpoint str_mul (s : string) (n : nat) : string :=
  match n with
  | O => ""
  | S n' => s ++ str_mul s n'
  end.

(** [str(n)] / [{n}] inside an f-string, for a length. *)
Definition str_nat (n : nat) : string := NilZero.string_of_uint (Nat.to_uint n).

(** [x in l] on a list of strings. *)
Definition py_in (x : string) (l : list string) : bool :=
  existsb (String.eqb x) l.

(** Truth value of an [Optional[str]]: [None] and [''] are falsy. *)
Definition truthy_opt_str (o : option string) : bool :=
  match o with
  | None => false
  | Some s => negb (String.eqb s "")
  end.

(** Truth value of a list. *)
Definition truthy_list {A : Type} (l : list A) : bool :=
  match l with
  | [] => false
  | _ :: _ => true
  end.

(** The model descriptor objects yielded by [genai.list_models()]; the
    scripts read these three attributes. *)
Record Model : Type := mkModel {
  name : string;
  display_name : string;
  supported_generation_methods : list string
}.

(** The object built by [genai.GenerativeModel(model_name)]. *)
Record GenerativeModel : Type := mkGenerativeModel {
  model_name : string
}.

(** Exceptions: what the client library raises on a call, the [ValueError]
    of its [response.text] accessor, and Python's own [IndexError].
    [exn_message] is [str(e)]. *)
Inductive Exn : Type :=
| ProviderError (msg : string)
| IndexError (msg : string)
| ValueError (msg : string).

Definition exn_message (e : Exn) : string :=
  match e with
  | ProviderError msg => msg
  | IndexError msg => msg
  | ValueError msg => msg
  end.

(** ** Runs: an event trace and an outcome *)

Inductive Event : Type :=
| Print (s : string)
| Configure (api_key : string)
| ListModels
| NewModel (model_name : string)
| GenerateContent (model_name : string) (prompt : string).

Inductive outcome (A : Type) : Type :=
| Returned (a : A)
| Raised (e : Exn).

Arguments Returned {A} a.
Arguments Raised {A} e.

Definition M (A : Type) : Type := (list Event * outcome A)%type.

Definition ret {A : Type} (a : A) : M A := ([], Returned a).

Definition bind {A B : Type} (m : M A) (k : A -> M B) : M B :=
  match m with
  | (t, Returned a) => let '(t', r) := k a in ((t ++ t')%list, r)
  | (t, Raised e) => (t, Raised e)
  end.

Definition emit (e : Event) : M unit := ([e], Returned tt).

Definition print (s : string) : M unit := emit (Print s).

Definition raise {A : Type} (e : Exn) : M A := ([], Raised e).

(** Reading a property of a library object: no event, and the value or the
    exception the property gives. *)
Definition read {A : Type} (property : outcome A) : M A := ([], property).

(** [try: body except Exception as e: handler e] *)
Definition try_except {A : Type} (body : M A) (handler : Exn -> M A) : M A :=
  match body with
  | (t, Returned a) => (t, Returned a)
  | (t, Raised e) => let '(t', r) := handler e in ((t ++ t')%list, r)
  end.

Declare Scope py_scope.
Delimit Scope py_scope with py.
Notation "x <- c ;; k" := (bind c (fun x => k))
  (at level 61, c at next level, right associativity) : py_scope.
Notation "c ;; k" := (bind c (fun _ => k))
  (at level 61, right associativity) : py_scope.
Open Scope py_scope.

(** [for x in l: body x] *)
Fixpoint for_each {A : Type} (l : list A) (body : A -> M unit) : M unit :=
  match l with
  | [] => ret tt
  | x :: l' => body x ;; for_each l' body
  end.

(** [l[i]] *)
Definition index {A : Type} (l : list A) (i : nat) : M A :=
  match nth_error l i with
  | Some x => ret x
  | None => raise (IndexError "list index out of range")
  end.

Definition trace {A : Type} (m : M A) : list Event := fst m.
Definition result {A : Type} (m : M A) : outcome A := snd m.

(** Classification of events. *)
Definition is_print (e : Event) : bool :=
  match e with
  | Print _ => true
  | _ => false
  end.

(** The two calls that go over the network. *)
Definition is_network_call (e : Event) : bool :=
  match e with
  | ListModels | GenerateContent _ _ => true
  | _ => false
  end.

(** The events of a run that are calls into the client library. *)
Definition calls (t : list Event) : list Event :=
  filter (fun e => negb (is_print e)) t.

(** ** The selection logic of [setup_gemini] *)

(** [preferred_models] (basic_connection.py, line 89). *)
Definition preferred_models : list string :=
  ["models/gemini-2.5-flash"; "models/gemini-2.0-flash"; "models/gemini-flash-latest"].

(** ['generateContent' in model.supported_generation_methods] *)
Definition supports_generate (model : Model) : bool :=
  py_in "generateContent" (supported_generation_methods model).

(** Lines 79-82: the loop that appends the names of the capable models. *)
Definition working_models_of (models : list Model) : list string :=
  fold_left
    (fun working_models model =>
       if supports_generate model then (working_models ++ [name model])%list
       else working_models)
    models [].

(** Lines 90-95: the loop over [preferred_models] with its [break]. *)
Fixpoint first_preferred (preferred : list string) (working_models : list string)
  : option string :=
  match preferred with
  | [] => None
  | p :: rest =>
      if py_in p working_models then Some p
      else first_preferred rest working_models
  end.

(** ** The scripts *)

Section Scripts.

(** The response objects come from the client library; the scripts only
    format a candidate's [finish_reason] and count its [safety_ratings].
    The enumeration, the rating objects and the way an f-string renders the
    enumeration belong to the library and are kept abstract. *)
Variable FinishReason : Type.
Variable SafetyRating : Type.
Variable str_finish_reason : FinishReason -> string.

Record Candidate : Type := mkCandidate {
  finish_reason : FinishReason;
  safety_ratings : list SafetyRating
}.

(** [response.text] is an accessor of the client library, not an
    attribute: it gives the text of the response or raises (the library
    raises [ValueError] when the response holds no usable text part, as for
    a response without candidates).  The record holds what evaluating it
    gives. *)
Record Response : Type := mkResponse {
  text : outcome string;
  candidates : list Candidate
}.

(** What the outside world answers during one run. *)
Record Provider : Type := mkProvider {
  environ : string -> option string;
  list_models : outcome (list Model);
  generate_content : string -> string -> outcome Response
}.

(** A call into the client: the event is recorded, the provider decides
    whether it returns or raises. *)
Definition call {A : Type} (e : Event) (answer : outcome A) : M A :=
  ([e], answer).

(** [list_available_models] (basic_connection.py, lines 21-48). *)
Definition list_available_models (P : Provider) : M (option (list Model)) :=
  try_except
    (print "🔍 Checking available models..." ;;
     models <- call ListModels (list_models P) ;;
     print (nl ++ "📋 Available Models:") ;;
     print (str_mul "-" 50) ;;
     for_each models (fun model =>
       let supports := supports_generate model in
       let status :=
         if supports then "✓ Supports generateContent"
         else "✗ No generateContent" in
       print ("Model: " ++ name model) ;;
       print ("  Display Name: " ++ display_name model) ;;
       print ("  Status: " ++ status) ;;
       print ("  Methods: " ++ String.concat ", " (supported_generation_methods model)) ;;
       print (str_mul "-" 50)) ;;
     ret (Some models))
    (fun e =>
       print ("❌ Error listing models: " ++ exn_message e) ;;
       ret None).

(** [setup_gemini] (basic_connection.py, lines 54-108). *)
Definition setup_gemini (P : Provider) : M (option GenerativeModel) :=
  let api_key := environ P "GOOGLE_API_KEY" in
  if negb (truthy_opt_str api_key) then
    print "⚠️  GOOGLE_API_KEY not found in environment!" ;;
    print "Get your key from: https://aistudio.google.com/app/apikey" ;;
    print "Then run: export GOOGLE_API_KEY='your-key-here'" ;;
    ret None
  else
    emit (Configure (match api_key with Some k => k | None => "" end)) ;;
    models <- list_available_models P ;;
    match models with
    | None => ret None
    | Some models =>
        if negb (truthy_list models) then ret None
        else
          let working_models := working_models_of models in
          if negb (truthy_list working_models) then
            print "❌ No models support generateContent!" ;;
            ret None
          else
            let model_name := first_preferred preferred_models working_models in
            model_name <-
              (if negb (truthy_opt_str model_name) then index working_models 0
               else ret (match model_name with Some n => n | None => "" end)) ;;
            print (nl ++ "✓ Using model: " ++ model_name) ;;
            model <- call (NewModel model_name)
                          (Returned (mkGenerativeModel model_name)) ;;
            print "✓ Gemini API configured successfully!" ;;
            print ("✓ Using model: " ++ model_name ++ nl) ;;
            ret (Some model)
    end.

(** [ask_question] (lines 114-130). *)
Definition ask_question (P : Provider) (model : GenerativeModel) (question : string)
  : M Response :=
  print ("📤 Sending question: " ++ question ++ nl) ;;
  response <- call (GenerateContent (model_name model) question)
                   (generate_content P (model_name model) question) ;;
  ret response.

(** [display_response] (lines 136-155). *)
Definition display_response (response : Response) : M unit :=
  print (str_mul "=" 70) ;;
  print "📥 GEMINI RESPONSE:" ;;
  print (str_mul "=" 70) ;;
  response_text <- read (text response) ;;
  print response_text ;;
  print (str_mul "=" 70) ;;
  print (nl ++ "📊 Response Metadata:") ;;
  print ("   - Number of candidates: " ++ str_nat (length (candidates response))) ;;
  c <- index (candidates response) 0 ;;
  print ("   - Finish reason: " ++ str_finish_reason (finish_reason c)) ;;
  c <- index (candidates response) 0 ;;
  print ("   - Safety ratings: " ++ str_nat (length (safety_ratings c)) ++ " checks").

Definition question : string := "Explain what an AI agent is in 2-3 sentences.".

(** [main] of basic_connection.py (lines 161-186). *)
Definition main (P : Provider) : M unit :=
  print (nl ++ str_mul "=" 70) ;;
  print "COMPONENT 1: Basic Gemini API Connection" ;;
  print (str_mul "=" 70 ++ nl) ;;
  model <- setup_gemini P ;;
  match model with
  | None => ret tt
  | Some model =>
      response <- ask_question P model question ;;
      display_response response ;;
      print (nl ++ "✅ Component 1 Complete!") ;;
      print (nl ++ "What you learned:") ;;
      print "  ✓ How to configure Gemini API" ;;
      print "  ✓ How to make a basic API call" ;;
      print "  ✓ How to parse and display responses" ;;
      print (nl ++ "Next: Component 2 will add tool calling (functions)")
  end.

(** The loop of check_models.py (lines 31-42): it prints each model and
    grows [generate_models]. *)
Fixpoint check_models_loop (models : list Model) (generate_models : list string)
  : M (list string) :=
  match models with
  | [] => ret generate_models
  | model :: rest =>
      let supports := supports_generate model in
      print ("Model Name: " ++ name model) ;;
      print ("Display Name: " ++ display_name model) ;;
      print ("Supports generateContent: " ++ (if supports then "✓ YES" else "✗ NO")) ;;
      print ("All Methods: " ++ String.concat ", " (supported_generation_methods model)) ;;
      let generate_models :=
        if supports then (generate_models ++ [name model])%list
        else generate_models in
      print (str_mul "-" 80) ;;
      check_models_loop rest generate_models
  end.

(** [main] of check_models.py (lines 10-59). *)
Definition check_models_main (P : Provider) : M unit :=
  let api_key := environ P "GOOGLE_API_KEY" in
  if negb (truthy_opt_str api_key) then
    print "❌ GOOGLE_API_KEY not found in environment!" ;;
    print "Set it with: export GOOGLE_API_KEY='your-key-here'" ;;
    ret tt
  else
    emit (Configure (match api_key with Some k => k | None => "" end)) ;;
    try_except
      (print ("🔍 Fetching available models for your API key..." ++ nl) ;;
       models <- call ListModels (list_models P) ;;
       print "📋 AVAILABLE MODELS:" ;;
       print (str_mul "=" 80) ;;
       generate_models <- check_models_loop models [] ;;
       print (nl ++ "🎯 MODELS YOU CAN USE (support generateContent):") ;;
       (if truthy_list generate_models then
          for_each generate_models (fun model_name => print ("  ✓ " ++ model_name))
        else print "  ❌ No models support generateContent!") ;;
       print (nl ++ "Total models available: " ++ str_nat (length models)) ;;
       print ("Models supporting generateContent: " ++ str_nat (length generate_models)))
      (fun e =>
         print ("❌ Error: " ++ exn_message e) ;;
         print (nl ++ "Possible issues:") ;;
         print "  - Invalid API key" ;;
         print "  - Network connectivity" ;;
         print "  - API quota exceeded").

End Scripts.

Arguments mkCandidate {FinishReason SafetyRating} _ _.
Arguments finish_reason {FinishReason SafetyRating} _.
Arguments safety_ratings {FinishReason SafetyRating} _.
Arguments mkResponse {FinishReason SafetyRating} _ _.
Arguments text {FinishReason SafetyRating} _.
Arguments candidates {FinishReason SafetyRating} _.
Arguments mkProvider {FinishReason SafetyRating} _ _ _.
Arguments environ {FinishReason SafetyRating} _ _.
Arguments list_models {FinishReason SafetyRating} _.
Arguments generate_content {FinishReason SafetyRating} _ _ _.
Arguments list_available_models {FinishReason SafetyRating} P.
Arguments setup_gemini {FinishReason SafetyRating} P.
Arguments ask_question {FinishReason SafetyRating} P model question.
Arguments display_response {FinishReason SafetyRating} str_finish_reason response.
Arguments main {FinishReason SafetyRating} str_finish_reason P.
Arguments check_models_main {FinishReason SafetyRating} P.

(** ** Notions used to state the properties *)

(** Presence of a usable credential, as [setup_gemini] and
    [check_models.main] test it. *)
Definition has_api_key {FR SR : Type} (P : @Provider FR SR) : Prop :=
  truthy_opt_str (environ P "GOOGLE_API_KEY") = true.

(** The key handed to [genai.configure]. *)
Definition api_key_of {FR SR : Type} (P : @Provider FR SR) : string :=
  match environ P "GOOGLE_API_KEY" with
  | Some k => k
  | None => ""
  end.

(** The value of [model_name] after line 98, as a function of the listed
    models: [None] stands for the two early returns of lines 76 and 86. *)
Definition selected_name (models : list Model) : option string :=
  match working_models_of models with
  | [] => None
  | first :: rest =>
      match first_preferred preferred_models (first :: rest) with
      | Some p => Some p
      | None => Some first
      end
  end.

(** The three banner lines [main] prints before anything else. *)
Definition banner : list Event :=
  [Print (nl ++ str_mul "=" 70);
   Print "COMPONENT 1: Basic Gemini API Connection";
   Print (str_mul "=" 70 ++ nl)].

(** The five lines check_models.py is expected to print for one listed
    model. *)
Definition model_report (model : Model) : list Event :=
  [Print ("Model Name: " ++ name model);
   Print ("Display Name: " ++ display_name model);
   Print ("Supports generateContent: " ++
          if supports_generate model then "✓ YES" else "✗ NO");
   Print ("All Methods: " ++ String.concat ", " (supported_generation_methods model));
   Print (str_mul "-" 80)].

(** The console output of a run: its [print] events. *)
Definition prints (t : list Event) : list Event := filter is_print t.

(** The six lines [main] prints after the response (lines 181-186). *)
Definition closing : list Event :=
  [Print (nl ++ "✅ Component 1 Complete!");
   Print (nl ++ "What you learned:");
   Print "  ✓ How to configure Gemini API";
   Print "  ✓ How to make a basic API call";
   Print "  ✓ How to parse and display responses";
   Print (nl ++ "Next: Component 2 will add tool calling (functions)")].

(** ** Concrete runs *)

Module Examples.

(** A small finish-reason enumeration and its rendering, to run the
    scripts on concrete responses. *)
Inductive reason : Type := STOP | MAX_TOKENS | SAFETY.

Definition str_reason (r : reason) : string :=
  match r with
  | STOP => "STOP"
  | MAX_TOKENS => "MAX_TOKENS"
  | SAFETY => "SAFETY"
  end.

Definition gen (n : string) : Model := mkModel n n ["generateContent"; "countTokens"].
Definition embed (n : string) : Model := mkModel n n ["embedContent"].

Definition with_key (k : string) (v : string) : option string :=
  if String.eqb v "GOOGLE_API_KEY" then Some k else None.

Definition no_key (v : string) : option string := None.

Definition answer (t : string) : outcome (@Response reason unit) :=
  Returned (mkResponse (Returned t) [mkCandidate STOP [tt; tt; tt; tt]]).

(** An account that lists [models] and answers every prompt. *)
Definition account (models : list Model) : @Provider reason unit :=
  mkProvider (with_key "k") (Returned models) (fun _ _ => answer "An agent acts.").

(** The same account when the generate-content call is rejected. *)
Definition rejecting (models : list Model) : @Provider reason unit :=
  mkProvider (with_key "k") (Returned models)
             (fun _ _ => Raised (ProviderError "429 quota exceeded")).

(** An account whose listing call fails. *)
Definition offline : @Provider reason unit :=
  mkProvider (with_key "k") (Raised (ProviderError "503 unavailable"))
             (fun _ _ => answer "unreachable").

(** No credential in the environment. *)
Definition no_credential : @Provider reason unit :=
  mkProvider no_key (Returned [gen "models/gemini-2.5-flash"])
             (fun _ _ => answer "unreachable").

(** A credential variable that is set but empty. *)
Definition empty_credential : @Provider reason unit :=
  mkProvider (with_key "") (Returned [gen "models/gemini-2.5-flash"])
             (fun _ _ => answer "unreachable").

(** A response without candidates, as the provider gives for a blocked
    prompt: its text accessor raises. *)
Definition blocked : @Response reason unit :=
  mkResponse (Raised (ValueError "response.text requires a valid Part")) [].

(** An account whose answers carry no candidate. *)
Definition hollow (models : list Model) : @Provider reason unit :=
  mkProvider (with_key "k") (Returned models) (fun _ _ => Returned blocked).

(** The account of [account] under another key. *)
Definition other_key (models : list Model) : @Provider reason unit :=
  mkProvider (with_key "another key") (Returned models)
             (fun _ _ => answer "An agent acts.").

End Examples.

(** ** Properties *)

(** *** Lists and membership *)

Lemma py_in_In (x : string) (l : list string) : py_in x l = true <-> In x l.
Proof.
  unfold py_in. rewrite existsb_exists. split.
  - intros [y [Hy Heq]]. apply String.eqb_eq in Heq. now subst.
  - intros H. exists x. split; [assumption | apply String.eqb_refl].
Qed.

Lemma py_in_false (x : string) (l : list string) : py_in x l = false <-> ~ In x l.
Proof.
  rewrite <- py_in_In. destruct (py_in x l); split; intros; congruence.
Qed.

Lemma py_in_perm (x : string) (l l' : list string) :
  Permutation l l' -> py_in x l = py_in x l'.
Proof.
  intros HP. destruct (py_in x l') eqn:E.
  - apply py_in_In. apply py_in_In in E.
    apply Permutation_in with (l := l'); [now apply Permutation_sym | assumption].
  - apply py_in_false. apply py_in_false in E. intros HIn. apply E.
    now apply Permutation_in with (l := l).
Qed.

(** The appending loop computes the names of the capable models in input
    order. *)
Lemma working_models_loop (models : list Model) (acc : list string) :
  fold_left
    (fun working_models model =>
       if supports_generate model then (working_models ++ [name model])%list
       else working_models)
    models acc
  = (acc ++ map name (filter supports_generate models))%list.
Proof.
  revert acc. induction models as [| m models IH]; intros acc; simpl.
  - now rewrite app_nil_r.
  - rewrite IH. destruct (supports_generate m); simpl.
    + now rewrite <- app_assoc.
    + reflexivity.
Qed.

Lemma working_models_filter (models : list Model) :
  working_models_of models = map name (filter supports_generate models).
Proof. unfold working_models_of. now rewrite working_models_loop. Qed.

Lemma working_models_In (models : list Model) (n : string) :
  In n (working_models_of models) <->
  exists d, In d models /\ supports_generate d = true /\ name d = n.
Proof.
  rewrite working_models_filter, in_map_iff. split.
  - intros [d [Hn Hd]]. apply filter_In in Hd. exists d. tauto.
  - intros [d [Hd [Hs Hn]]]. exists d. split; [assumption |].
    apply filter_In. tauto.
Qed.

Lemma working_models_perm (models models' : list Model) :
  Permutation models models' ->
  Permutation (working_models_of models) (working_models_of models').
Proof.
  intros HP. rewrite !working_models_filter.
  apply Permutation_map. induction HP; simpl.
  - constructor.
  - destruct (supports_generate x); [now constructor | assumption].
  - destruct (supports_generate x), (supports_generate y);
      try apply Permutation_refl; apply perm_swap.
  - eapply Permutation_trans; eassumption.
Qed.

(** *** The preference loop *)

Lemma first_preferred_Some (preferred working : list string) (p : string) :
  first_preferred preferred working = Some p <->
  exists i, nth_error preferred i = Some p /\ In p working /\
            forall j q, j < i -> nth_error preferred j = Some q -> ~ In q working.
Proof.
  revert p. induction preferred as [| a preferred IH]; intros p; simpl.
  - split; [discriminate |]. intros [i [Hi _]]. destruct i; discriminate.
  - destruct (py_in a working) eqn:E.
    + apply py_in_In in E. split.
      * intros [= <-]. exists 0. split; [reflexivity |]. split; [assumption |].
        intros j q Hj. lia.
      * intros [i [Hi [Hp Hmin]]]. destruct i as [| i].
        -- simpl in Hi. assumption.
        -- exfalso. apply (Hmin 0 a); [lia | reflexivity | assumption].
    + apply py_in_false in E. rewrite IH. split.
      * intros [i [Hi [Hp Hmin]]]. exists (S i). split; [assumption |].
        split; [assumption |]. intros j q Hj Hq. destruct j as [| j].
        -- simpl in Hq. injection Hq as <-. assumption.
        -- apply (Hmin j q); [lia | assumption].
      * intros [i [Hi [Hp Hmin]]]. destruct i as [| i].
        -- simpl in Hi. injection Hi as <-. contradiction.
        -- exists i. split; [assumption |]. split; [assumption |].
           intros j q Hj Hq. apply (Hmin (S j) q); [lia | assumption].
Qed.

Lemma first_preferred_None (preferred working : list string) :
  first_preferred preferred working = None <->
  forall p, In p preferred -> ~ In p working.
Proof.
  induction preferred as [| a preferred IH]; simpl.
  - split; [intros _ p [] | reflexivity].
  - destruct (py_in a working) eqn:E.
    + apply py_in_In in E. split; [discriminate |].
      intros H. exfalso. apply (H a); [now left | assumption].
    + apply py_in_false in E. rewrite IH. split.
      * intros H p [<- | Hp]; [assumption | now apply H].
      * intros H p Hp. apply H. now right.
Qed.

Lemma first_preferred_perm (preferred working working' : list string) :
  Permutation working working' ->
  first_preferred preferred working = first_preferred preferred working'.
Proof.
  intros HP. induction preferred as [| a preferred IH]; simpl.
  - reflexivity.
  - rewrite (py_in_perm a working working' HP), IH. reflexivity.
Qed.

(** A name chosen from [preferred_models] is a non-empty string, so the
    test [if not model_name] only fires on [None]. *)
Lemma first_preferred_truthy (working : list string) :
  truthy_opt_str (first_preferred preferred_models working)
  = match first_preferred preferred_models working with
    | Some _ => true
    | None => false
    end.
Proof.
  unfold preferred_models. simpl.
  repeat match goal with
         | |- context [py_in ?a working] => destruct (py_in a working)
         end; reflexivity.
Qed.

(** *** Runs of the scripts *)

Lemma calls_app (t t' : list Event) : calls (t ++ t') = (calls t ++ calls t')%list.
Proof. apply filter_app. Qed.

Lemma calls_In (e : Event) (t : list Event) :
  In e (calls t) <-> In e t /\ is_print e = false.
Proof.
  unfold calls. rewrite filter_In. destruct (is_print e); simpl; intuition congruence.
Qed.

Lemma calls_nil : calls [] = [].
Proof. reflexivity. Qed.

Lemma calls_print (s : string) (t : list Event) : calls (Print s :: t) = calls t.
Proof. reflexivity. Qed.

Lemma calls_call (e : Event) (t : list Event) :
  is_print e = false -> calls (e :: t) = e :: calls t.
Proof. intros H. unfold calls. simpl. now rewrite H. Qed.

Create Rewrite HintDb calls.
#[export] Hint Rewrite calls_app calls_print calls_nil app_nil_r : calls.

(** Reduce [calls] of a trace built from conses and appends. *)
Ltac count_calls :=
  repeat (autorewrite with calls || (rewrite calls_call by reflexivity));
  cbn [app].

(** A loop whose body only prints returns normally and only prints. *)
Lemma for_each_prints {A : Type} (l : list A) (body : A -> M unit) :
  (forall x, exists t, body x = (t, Returned tt) /\ calls t = []) ->
  exists t, for_each l body = (t, Returned tt) /\ calls t = [].
Proof.
  intros Hbody. induction l as [| x l [t [Hl Ht]]]; simpl.
  - exists []. split; reflexivity.
  - destruct (Hbody x) as [tx [Hx Htx]]. unfold bind. rewrite Hx, Hl.
    exists (tx ++ t)%list. split; [reflexivity |].
    rewrite calls_app, Htx, Ht. reflexivity.
Qed.

Section Runs.

Context {FinishReason SafetyRating : Type}.
Variable str_finish_reason : FinishReason -> string.
Implicit Type P : @Provider FinishReason SafetyRating.

Lemma lister_returned P (models : list Model) :
  list_models P = Returned models ->
  exists t, list_available_models P = (t, Returned (Some models)) /\
            calls t = [ListModels].
Proof.
  intros HL. unfold list_available_models. rewrite HL.
  cbv [try_except call print emit ret bind].
  match goal with
  | |- context [for_each models ?b] =>
      destruct (for_each_prints models b) as [t [Hl Ht]]
  end.
  { intros x. eexists. split; reflexivity. }
  rewrite Hl. cbn [app].
  eexists. split; [reflexivity |].
  count_calls. now rewrite Ht.
Qed.

Lemma lister_raised P (e : Exn) :
  list_models P = Raised e ->
  list_available_models P =
    ([Print "🔍 Checking available models..."; ListModels;
      Print ("❌ Error listing models: " ++ exn_message e)], Returned None).
Proof.
  intros HL. unfold list_available_models. rewrite HL. reflexivity.
Qed.

Lemma setup_without_key P :
  ~ has_api_key P ->
  setup_gemini P =
    ([Print "⚠️  GOOGLE_API_KEY not found in environment!";
      Print "Get your key from: https://aistudio.google.com/app/apikey";
      Print "Then run: export GOOGLE_API_KEY='your-key-here'"], Returned None).
Proof.
  unfold has_api_key, setup_gemini. intros H.
  destruct (truthy_opt_str (environ P "GOOGLE_API_KEY")); [congruence | reflexivity].
Qed.

Lemma setup_listing_raised P (e : Exn) :
  has_api_key P -> list_models P = Raised e ->
  setup_gemini P =
    (Configure (api_key_of P) :: trace (list_available_models P), Returned None).
Proof.
  unfold has_api_key, setup_gemini. intros HK HL. rewrite HK.
  rewrite (lister_raised P e HL). reflexivity.
Qed.

(** With a credential and a successful listing, [setup_gemini] returns a
    model built from [selected_name], or [None] when there is none; its
    only calls are [configure], the listing and that construction. *)
Lemma setup_selects P (models : list Model) :
  has_api_key P -> list_models P = Returned models ->
  exists t,
    setup_gemini P = (t, Returned (option_map mkGenerativeModel (selected_name models))) /\
    calls t = (Configure (api_key_of P) :: ListModels ::
               match selected_name models with
               | Some n => [NewModel n]
               | None => []
               end).
Proof.
  unfold has_api_key, setup_gemini. intros HK HL. rewrite HK.
  destruct (lister_returned P models HL) as [t [Hl Ht]].
  cbn [negb]. unfold bind at 1. cbn [emit]. unfold bind at 1. rewrite Hl.
  unfold selected_name, api_key_of.
  destruct models as [| m models'].
  - cbn [truthy_list negb ret app working_models_of fold_left option_map].
    eexists. split; [reflexivity |].
    count_calls. now rewrite Ht.
  - cbn [truthy_list negb].
    destruct (working_models_of (m :: models')) as [| first rest].
    + cbv [truthy_list negb print emit ret bind]. cbn [app option_map].
      eexists. split; [reflexivity |].
      count_calls. now rewrite Ht.
    + cbn [truthy_list negb]. rewrite first_preferred_truthy.
      destruct (first_preferred preferred_models (first :: rest)) as [p |].
      * cbv [negb call print emit ret bind]. cbn [app option_map].
        eexists. split; [reflexivity |].
        count_calls. now rewrite Ht.
      * cbv [negb index nth_error call print emit ret bind]. cbn [app option_map].
        eexists. split; [reflexivity |].
        count_calls. now rewrite Ht.
Qed.

Lemma setup_result P (models : list Model) :
  has_api_key P -> list_models P = Returned models ->
  result (setup_gemini P)
  = Returned (option_map mkGenerativeModel (selected_name models)).
Proof.
  intros HK HL. destruct (setup_selects P models HK HL) as [t [Hrun _]].
  now rewrite Hrun.
Qed.

(** *** The selected name *)

Lemma selected_name_preferred (models : list Model) (p : string) :
  first_preferred preferred_models (working_models_of models) = Some p ->
  selected_name models = Some p.
Proof.
  unfold selected_name. intros H.
  destruct (working_models_of models) as [| first rest].
  - apply first_preferred_Some in H. destruct H as [i [_ [[] _]]].
  - now rewrite H.
Qed.

Lemma selected_name_fallback (models : list Model) :
  first_preferred preferred_models (working_models_of models) = None ->
  selected_name models = hd_error (working_models_of models).
Proof.
  unfold selected_name. intros H.
  destruct (working_models_of models) as [| first rest]; [reflexivity |].
  now rewrite H.
Qed.

Lemma selected_name_capable (models : list Model) (n : string) :
  selected_name models = Some n -> In n (working_models_of models).
Proof.
  unfold selected_name.
  destruct (working_models_of models) as [| first rest] eqn:E; [discriminate |].
  destruct (first_preferred preferred_models (first :: rest)) as [p |] eqn:F.
  - intros [= <-]. apply first_preferred_Some in F.
    destruct F as [i [_ [HIn _]]]. exact HIn.
  - intros [= <-]. now left.
Qed.

(** The first element that passes a test splits the list around it. *)
Lemma first_passing_split {A : Type} (f : A -> bool) (l : list A) :
  (exists x, In x l /\ f x = true) ->
  exists before x after,
    l = (before ++ x :: after)%list /\
    Forall (fun y => f y = false) before /\
    f x = true /\
    filter f l = x :: filter f after.
Proof.
  induction l as [| a l IH]; intros [x [HIn Hx]]; [destruct HIn |].
  destruct (f a) eqn:Ha.
  - exists [], a, l. simpl. rewrite Ha. repeat split; constructor.
  - destruct HIn as [-> | HIn]; [congruence |].
    destruct IH as [before [y [after [Hl [Hb [Hy Hf]]]]]]; [now exists x |].
    exists (a :: before), y, after. simpl. rewrite Ha, Hl at 1.
    repeat split; try assumption. now constructor.
Qed.


(** *** Runs of [display_response] and [main] *)

Lemma display_only_prints (r : @Response FinishReason SafetyRating) :
  calls (trace (display_response str_finish_reason r)) = [].
Proof.
  destruct r as [[txt | e] [| c cs]]; reflexivity.
Qed.

Lemma main_without_model P (t : list Event) :
  setup_gemini P = (t, Returned None) ->
  main str_finish_reason P = ((banner ++ t)%list, Returned tt).
Proof.
  intros HS. unfold main. cbv [bind print emit ret]. rewrite HS.
  cbn [app]. now rewrite app_nil_r.
Qed.

Lemma main_generate_raised P (t : list Event) (model : GenerativeModel) (e : Exn) :
  setup_gemini P = (t, Returned (Some model)) ->
  generate_content P (model_name model) question = Raised e ->
  main str_finish_reason P =
    ((banner ++ t ++
      [Print ("📤 Sending question: " ++ question ++ nl);
       GenerateContent (model_name model) question])%list, Raised e).
Proof.
  intros HS HG. unfold main, ask_question. cbv [bind print emit ret call].
  rewrite HS, HG. reflexivity.
Qed.

Lemma main_calls P (t : list Event) (o : outcome (option GenerativeModel)) :
  setup_gemini P = (t, o) ->
  calls (trace (main str_finish_reason P)) =
    (calls t ++ match o with
                | Returned (Some model) => [GenerateContent (model_name model) question]
                | _ => []
                end)%list.
Proof.
  intros HS. unfold main, ask_question. cbv [bind print emit ret call].
  rewrite HS. destruct o as [[model |] | e].
  - destruct (generate_content P (model_name model) question) as [r | e].
    + pose proof (display_only_prints r) as HD.
      destruct (display_response str_finish_reason r) as [td [[] | e]];
        cbn [trace fst] in *; cbn [app]; count_calls; rewrite HD; reflexivity.
    + cbn [trace fst app]. count_calls. reflexivity.
  - cbn [trace fst app]. count_calls. reflexivity.
  - cbn [trace fst app]. count_calls. reflexivity.
Qed.

(** ** Model selection *)

(** C1.  When some capable model carries a name of [preferred_models],
    [setup_gemini] returns a model built from the preferred name of highest
    priority among the capable models: the name stands at some index of the
    preference list, a capable model carries it, and no name at a smaller
    index is carried by a capable model.  Any reordering of the listed
    models gives the same name. *)
Theorem C1_highest_priority_preferred P (models : list Model) :
  has_api_key P ->
  list_models P = Returned models ->
  (exists d, In d models /\ supports_generate d = true /\
             In (name d) preferred_models) ->
  exists p i,
    result (setup_gemini P) = Returned (Some (mkGenerativeModel p)) /\
    nth_error preferred_models i = Some p /\
    (exists d, In d models /\ supports_generate d = true /\ name d = p) /\
    (forall j q, j < i -> nth_error preferred_models j = Some q ->
       ~ exists d, In d models /\ supports_generate d = true /\ name d = q) /\
    (forall P' models',
       has_api_key P' -> list_models P' = Returned models' ->
       Permutation models models' ->
       result (setup_gemini P') = Returned (Some (mkGenerativeModel p))).
Proof.
  intros HK HL [d [Hd [Hs Hp]]].
  destruct (first_preferred preferred_models (working_models_of models))
    as [p |] eqn:F.
  - pose proof F as F'. apply first_preferred_Some in F'.
    destruct F' as [i [Hi [Hw Hmin]]].
    exists p, i. split; [| split; [exact Hi | split; [| split]]].
    + rewrite (setup_result P models HK HL).
      now rewrite (selected_name_preferred models p F).
    + now apply working_models_In.
    + intros j q Hj Hq Hex. apply (Hmin j q Hj Hq). now apply working_models_In.
    + intros P' models' HK' HL' HP.
      rewrite (setup_result P' models' HK' HL').
      rewrite (selected_name_preferred models' p); [reflexivity |].
      rewrite <- F. symmetry. apply first_preferred_perm.
      now apply working_models_perm.
  - exfalso. rewrite first_preferred_None in F. apply (F (name d) Hp).
    apply working_models_In. now exists d.
Qed.

(** C2.  When at least one listed model supports generation and no capable
    model carries a preferred name, [setup_gemini] returns a model built
    from the name of the first capable model in the order of the listing:
    every model listed before it lacks the capability. *)
Theorem C2_first_capable_fallback P (models : list Model) :
  has_api_key P ->
  list_models P = Returned models ->
  (exists d, In d models /\ supports_generate d = true) ->
  (forall d, In d models -> supports_generate d = true ->
             ~ In (name d) preferred_models) ->
  exists before d after,
    models = (before ++ d :: after)%list /\
    Forall (fun m => supports_generate m = false) before /\
    supports_generate d = true /\
    result (setup_gemini P) = Returned (Some (mkGenerativeModel (name d))).
Proof.
  intros HK HL Hex Hnone.
  destruct (first_passing_split supports_generate models Hex)
    as [before [d [after [Hsplit [Hbefore [Hd Hfilter]]]]]].
  exists before, d, after. repeat split; try assumption.
  rewrite (setup_result P models HK HL).
  rewrite selected_name_fallback.
  - now rewrite working_models_filter, Hfilter.
  - apply first_preferred_None. intros p Hp Hw.
    apply working_models_In in Hw. destruct Hw as [m [Hm [Hs <-]]].
    now apply (Hnone m).
Qed.

(** C3.  When the listing is empty or no listed model supports generation,
    [setup_gemini] returns [None] and builds no model.  The run consists of
    the [configure] call and the listing, followed, when the listing is not
    empty, by the line saying that no model supports generateContent. *)
Theorem C3_no_capable_model P (models : list Model) :
  has_api_key P ->
  list_models P = Returned models ->
  (forall d, In d models -> supports_generate d = false) ->
  result (setup_gemini P) = Returned None /\
  (forall n, ~ In (NewModel n) (trace (setup_gemini P))) /\
  trace (setup_gemini P) =
    (Configure (api_key_of P) :: trace (list_available_models P) ++
     match models with
     | [] => []
     | _ :: _ => [Print "❌ No models support generateContent!"]
     end)%list.
Proof.
  intros HK HL Hnone.
  assert (HW : working_models_of models = []).
  { destruct (working_models_of models) as [| n w] eqn:E; [reflexivity |].
    assert (HIn : In n (working_models_of models)) by (rewrite E; now left).
    apply working_models_In in HIn. destruct HIn as [d [Hd [Hs _]]].
    rewrite (Hnone d Hd) in Hs. discriminate. }
  assert (HS : selected_name models = None)
    by (unfold selected_name; now rewrite HW).
  destruct (setup_selects P models HK HL) as [t [Hrun Hcalls]].
  rewrite HS in Hrun, Hcalls. split; [| split].
  - now rewrite Hrun.
  - intros n HIn. rewrite Hrun in HIn. cbn [trace fst] in HIn.
    assert (HC : In (NewModel n) (calls t)) by (apply calls_In; now split).
    rewrite Hcalls in HC. destruct HC as [HC | [HC | []]]; discriminate.
  - clear Hrun Hcalls t. unfold has_api_key in HK.
    destruct (lister_returned P models HL) as [t [Hl _]].
    unfold setup_gemini, api_key_of. rewrite HK, Hl.
    cbv [negb bind emit]. cbn [trace fst].
    destruct models as [| m models'].
    + reflexivity.
    + cbn [truthy_list negb]. rewrite HW. reflexivity.
Qed.

(** C4.  For the listing of the two capable models "models/a" and
    "models/gemini-2.0-flash", in this order, [setup_gemini] returns a model
    built from "models/gemini-2.0-flash". *)
Theorem C4_preferred_over_earlier P (display_a display_b : string) :
  has_api_key P ->
  list_models P =
    Returned [mkModel "models/a" display_a ["generateContent"];
              mkModel "models/gemini-2.0-flash" display_b ["generateContent"]] ->
  result (setup_gemini P)
  = Returned (Some (mkGenerativeModel "models/gemini-2.0-flash")).
Proof.
  intros HK HL. rewrite (setup_result P _ HK HL). reflexivity.
Qed.


(** ** Credential, listing and generation *)

(** C5.  Without [GOOGLE_API_KEY] in the environment both scripts print
    their guidance lines and return; the runs consist of prints only, so
    neither the listing call nor a generate-content call is made. *)
Theorem C5_missing_credential P :
  environ P "GOOGLE_API_KEY" = None ->
  main str_finish_reason P =
    ((banner ++
      [Print "⚠️  GOOGLE_API_KEY not found in environment!";
       Print "Get your key from: https://aistudio.google.com/app/apikey";
       Print "Then run: export GOOGLE_API_KEY='your-key-here'"])%list,
     Returned tt) /\
  check_models_main P =
    ([Print "❌ GOOGLE_API_KEY not found in environment!";
      Print "Set it with: export GOOGLE_API_KEY='your-key-here'"],
     Returned tt) /\
  Forall (fun e => is_network_call e = false) (trace (main str_finish_reason P)) /\
  Forall (fun e => is_network_call e = false) (trace (check_models_main P)).
Proof.
  intros HE.
  assert (HM : main str_finish_reason P =
    ((banner ++
      [Print "⚠️  GOOGLE_API_KEY not found in environment!";
       Print "Get your key from: https://aistudio.google.com/app/apikey";
       Print "Then run: export GOOGLE_API_KEY='your-key-here'"])%list,
     Returned tt)).
  { apply main_without_model. apply setup_without_key.
    unfold has_api_key. rewrite HE. discriminate. }
  assert (HC : check_models_main P =
    ([Print "❌ GOOGLE_API_KEY not found in environment!";
      Print "Set it with: export GOOGLE_API_KEY='your-key-here'"],
     Returned tt)).
  { unfold check_models_main. rewrite HE. reflexivity. }
  rewrite HM, HC. repeat split; repeat constructor.
Qed.

(** C6.  A model is only built, and a generate-content call only made, with
    the name of a listed model whose supported methods include
    generateContent. *)
Theorem C6_generation_uses_capable_model P (n : string) :
  In (NewModel n) (trace (main str_finish_reason P)) \/
  (exists q, In (GenerateContent n q) (trace (main str_finish_reason P))) ->
  exists models d,
    list_models P = Returned models /\ In d models /\
    name d = n /\ supports_generate d = true.
Proof.
  intros H.
  assert (HC : In (NewModel n) (calls (trace (main str_finish_reason P))) \/
               exists q, In (GenerateContent n q)
                            (calls (trace (main str_finish_reason P)))).
  { destruct H as [H | [q H]]; [left | right; exists q];
      apply calls_In; now split. }
  clear H.
  destruct (truthy_opt_str (environ P "GOOGLE_API_KEY")) eqn:HK.
  - destruct (list_models P) as [models | e] eqn:HL.
    + destruct (setup_selects P models HK HL) as [t [Hrun Hcalls]].
      rewrite (main_calls P _ _ Hrun), Hcalls in HC.
      destruct (selected_name models) as [n' |] eqn:HS.
      * assert (Hn : n = n').
        { cbn in HC. destruct HC as [HC | [q HC]];
            repeat (destruct HC as [HC | HC]; try discriminate);
            try contradiction; congruence. }
        subst n'. apply selected_name_capable, working_models_In in HS.
        destruct HS as [d [Hd [Hs Hname]]]. now exists models, d.
      * exfalso. cbn in HC. destruct HC as [HC | [q HC]];
          repeat (destruct HC as [HC | HC]; try discriminate); contradiction.
    + exfalso. pose proof (setup_listing_raised P e HK HL) as Hrun.
      rewrite (main_calls P _ _ Hrun), (lister_raised P e HL) in HC.
      cbn in HC. destruct HC as [HC | [q HC]];
        repeat (destruct HC as [HC | HC]; try discriminate); contradiction.
  - exfalso.
    assert (Hrun := setup_without_key P).
    rewrite (main_calls P _ _ (Hrun ltac:(unfold has_api_key; congruence))) in HC.
    cbn in HC. destruct HC as [HC | [q HC]]; contradiction.
Qed.

(** C7, as the code has it.  With a credential present: an error raised by
    the listing call is caught inside [list_available_models], printed, and
    [main] returns after that single listing call; an error raised by the
    generate-content call is not caught, it leaves [main] as a raised
    exception right after that single call, nothing being printed after
    it. *)
Theorem C7_errors_end_the_run P :
  has_api_key P ->
  (forall e, list_models P = Raised e ->
     result (main str_finish_reason P) = Returned tt /\
     In (Print ("❌ Error listing models: " ++ exn_message e))
        (trace (main str_finish_reason P)) /\
     calls (trace (main str_finish_reason P))
     = [Configure (api_key_of P); ListModels]) /\
  (forall model e,
     result (setup_gemini P) = Returned (Some model) ->
     generate_content P (model_name model) question = Raised e ->
     result (main str_finish_reason P) = Raised e /\
     calls (trace (main str_finish_reason P))
     = [Configure (api_key_of P); ListModels; NewModel (model_name model);
        GenerateContent (model_name model) question] /\
     exists t, trace (main str_finish_reason P)
               = (t ++ [GenerateContent (model_name model) question])%list).
Proof.
  intros HK. split.
  - intros e HL. pose proof (setup_listing_raised P e HK HL) as Hrun.
    pose proof (main_calls P _ _ Hrun) as HC.
    rewrite (main_without_model P _ Hrun) in *. cbn [result trace fst snd] in *.
    split; [reflexivity |]. split.
    + rewrite (lister_raised P e HL). cbn [trace fst].
      apply in_or_app. right. right. right. right. now left.
    + rewrite HC. rewrite (lister_raised P e HL). reflexivity.
  - intros model e HS HG.
    destruct (list_models P) as [models |e'] eqn:HL.
    + destruct (setup_selects P models HK HL) as [t [Hrun Hcalls]].
      rewrite Hrun in HS. cbn [result snd] in HS.
      destruct (selected_name models) as [n |]; [| discriminate].
      cbn [option_map] in HS. injection HS as <-. cbn [model_name] in *.
      cbn [option_map] in Hrun.
      pose proof (main_calls P _ _ Hrun) as HC.
      rewrite (main_generate_raised P t _ e Hrun HG) in *.
      cbn [result trace fst snd model_name] in *.
      split; [reflexivity |]. split.
      * now rewrite HC, Hcalls.
      * exists (banner ++ t ++ [Print ("📤 Sending question: " ++ question ++ nl)])%list.
        now rewrite <- !app_assoc.
    + rewrite (setup_listing_raised P e' HK HL) in HS. discriminate.
Qed.

(** C8.  [list_available_models] returns the list the provider gave, the
    empty list included, and returns [None] exactly when the listing call
    raised. *)
Theorem C8_lister_empty_is_not_failure P :
  (list_models P = Returned [] ->
   result (list_available_models P) = Returned (Some [])) /\
  (forall models, list_models P = Returned models ->
   result (list_available_models P) = Returned (Some models)) /\
  (result (list_available_models P) = Returned None <->
   exists e, list_models P = Raised e).
Proof.
  assert (HR : forall models, list_models P = Returned models ->
               result (list_available_models P) = Returned (Some models)).
  { intros models HL. destruct (lister_returned P models HL) as [t [Hl _]].
    now rewrite Hl. }
  split; [apply HR | split; [exact HR |]]. split.
  - intros HN. destruct (list_models P) as [models | e] eqn:HL.
    + rewrite (HR models eq_refl) in HN. discriminate.
    + now exists e.
  - intros [e HL]. now rewrite (lister_raised P e HL).
Qed.


End Runs.

(** ** The properties on concrete runs *)

Import Examples.

(** Solve membership in an explicit list. *)
Ltac in_list := repeat (try (left; reflexivity); right).

Lemma C1_witness :
  exists p i,
    result (setup_gemini
              (account [gen "models/a"; gen "models/gemini-flash-latest";
                        embed "models/gemini-2.5-flash";
                        gen "models/gemini-2.0-flash"]))
    = Returned (Some (mkGenerativeModel p)) /\
    nth_error preferred_models i = Some p /\
    p = "models/gemini-2.0-flash".
Proof.
  destruct (C1_highest_priority_preferred
              (account [gen "models/a"; gen "models/gemini-flash-latest";
                        embed "models/gemini-2.5-flash";
                        gen "models/gemini-2.0-flash"]) _
              eq_refl eq_refl)
    as [p [i [Hres [Hi _]]]].
  - exists (gen "models/gemini-2.0-flash"). split; [in_list |].
    split; [reflexivity | in_list].
  - exists p, i. split; [exact Hres |]. split; [exact Hi |].
    vm_compute in Hres. now injection Hres as <-.
Defined.

Lemma C2_witness :
  exists before d after,
    [embed "models/e"; gen "models/b"; gen "models/a"]
    = (before ++ d :: after)%list /\
    Forall (fun m => supports_generate m = false) before /\
    supports_generate d = true /\
    result (setup_gemini (account [embed "models/e"; gen "models/b"; gen "models/a"]))
    = Returned (Some (mkGenerativeModel (name d))).
Proof.
  apply (C2_first_capable_fallback
           (account [embed "models/e"; gen "models/b"; gen "models/a"]) _
           eq_refl eq_refl).
  - exists (gen "models/b"). split; [in_list | reflexivity].
  - intros d [<- | [<- | [<- | []]]] Hs Hp; vm_compute in Hs; try discriminate;
      vm_compute in Hp;
      repeat (destruct Hp as [Hp | Hp]; try discriminate); exact Hp.
Defined.

Lemma C3_witness :
  result (setup_gemini (account [embed "models/e"])) = Returned None /\
  result (setup_gemini (account [])) = Returned None.
Proof.
  split.
  - apply (C3_no_capable_model (account [embed "models/e"]) _ eq_refl eq_refl).
    intros d [<- | []]. reflexivity.
  - apply (C3_no_capable_model (account []) _ eq_refl eq_refl).
    intros d [].
Defined.

Lemma C4_witness :
  result (setup_gemini
            (account [mkModel "models/a" "A" ["generateContent"];
                      mkModel "models/gemini-2.0-flash" "Flash" ["generateContent"]]))
  = Returned (Some (mkGenerativeModel "models/gemini-2.0-flash")).
Proof.
  apply (C4_preferred_over_earlier _ "A" "Flash"); reflexivity.
Defined.

Lemma C5_witness :
  calls (trace (main str_reason no_credential)) = [] /\
  calls (trace (check_models_main no_credential)) = [].
Proof.
  destruct (C5_missing_credential str_reason no_credential eq_refl)
    as [HM [HC _]].
  rewrite HM, HC. split; reflexivity.
Defined.

Lemma C6_witness :
  exists models d,
    list_models (account [embed "models/e"; gen "models/a"]) = Returned models /\
    In d models /\ name d = "models/a" /\ supports_generate d = true.
Proof.
  apply (C6_generation_uses_capable_model str_reason
           (account [embed "models/e"; gen "models/a"]) "models/a").
  right. exists question. vm_compute. in_list.
Defined.

(** C7 as stated fails: when the provider rejects the prompt, the exception
    leaves [main]; the last event of the run is the rejected call, so
    nothing about the error is printed. *)
Lemma C7_generation_error_escapes :
  result (main str_reason (rejecting [gen "models/a"]))
  = Raised (ProviderError "429 quota exceeded") /\
  last (trace (main str_reason (rejecting [gen "models/a"]))) ListModels
  = GenerateContent "models/a" question.
Proof. split; reflexivity. Qed.

Lemma C7_witness :
  result (main str_reason offline) = Returned tt /\
  result (main str_reason (rejecting [gen "models/a"]))
  = Raised (ProviderError "429 quota exceeded").
Proof.
  split.
  - apply (proj1 (C7_errors_end_the_run str_reason offline eq_refl)
             (ProviderError "503 unavailable") eq_refl).
  - apply (proj2 (C7_errors_end_the_run str_reason
                    (rejecting [gen "models/a"]) eq_refl)
             (mkGenerativeModel "models/a")
             (ProviderError "429 quota exceeded") eq_refl eq_refl).
Defined.

Lemma C8_witness :
  result (list_available_models (account [])) = Returned (Some []) /\
  result (list_available_models offline) = Returned None.
Proof.
  split.
  - apply (proj1 (C8_lister_empty_is_not_failure (account [])) eq_refl).
  - apply (proj2 (proj2 (C8_lister_empty_is_not_failure offline))).
    exists (ProviderError "503 unavailable"). reflexivity.
Defined.



(** ** Further properties of the two scripts *)

Section MoreRuns.

Context {FinishReason SafetyRating : Type}.
Variable str_finish_reason : FinishReason -> string.
Implicit Type P : @Provider FinishReason SafetyRating.

(** *** Helper runs *)

Lemma display_returns (r : @Response FinishReason SafetyRating)
      (response_text : string) :
  candidates r <> [] -> text r = Returned response_text ->
  result (display_response str_finish_reason r) = Returned tt.
Proof.
  destruct r as [txt [| c cs]]; cbn [candidates text]; [congruence |].
  intros _ ->. reflexivity.
Qed.

Lemma display_prints_text (r : @Response FinishReason SafetyRating)
      (response_text : string) :
  text r = Returned response_text ->
  In (Print response_text) (trace (display_response str_finish_reason r)).
Proof.
  destruct r as [txt [| c cs]]; cbn [text]; intros ->; cbn; tauto.
Qed.

Lemma display_text_raised (r : @Response FinishReason SafetyRating) (e : Exn) :
  text r = Raised e ->
  display_response str_finish_reason r =
    ([Print (str_mul "=" 70); Print "📥 GEMINI RESPONSE:";
      Print (str_mul "=" 70)], Raised e).
Proof.
  destruct r as [txt cs]; cbn [text]; intros ->. reflexivity.
Qed.

(** [main] once [setup_gemini] gave a model and the provider answered. *)
Lemma main_generate_returned P (t : list Event) (model : GenerativeModel)
      (r : @Response FinishReason SafetyRating) :
  setup_gemini P = (t, Returned (Some model)) ->
  generate_content P (model_name model) question = Returned r ->
  main str_finish_reason P =
    ((banner ++ t ++
      [Print ("📤 Sending question: " ++ question ++ nl);
       GenerateContent (model_name model) question] ++
      trace (display_response str_finish_reason r) ++
      match result (display_response str_finish_reason r) with
      | Returned _ => closing
      | Raised _ => []
      end)%list,
     match result (display_response str_finish_reason r) with
     | Returned _ => Returned tt
     | Raised e => Raised e
     end).
Proof.
  intros HS HG. unfold main, ask_question. cbv [bind print emit ret call].
  rewrite HS, HG.
  destruct (display_response str_finish_reason r) as [td [[] | e]];
    cbn [trace result fst snd app]; rewrite ?app_nil_r; reflexivity.
Qed.

(** [list_available_models] and [setup_gemini] read the provider through
    the environment variable and the listing only. *)
Lemma lister_same_listing P P' :
  list_models P = list_models P' ->
  list_available_models P = list_available_models P'.
Proof. intros H. unfold list_available_models. now rewrite H. Qed.

Lemma setup_after_configure P P' :
  has_api_key P -> has_api_key P' ->
  list_models P = list_models P' ->
  exists t o,
    setup_gemini P = (Configure (api_key_of P) :: t, o) /\
    setup_gemini P' = (Configure (api_key_of P') :: t, o).
Proof.
  unfold has_api_key, setup_gemini, api_key_of. intros HK HK' HL.
  rewrite HK, HK', (lister_same_listing P P' HL). cbn [negb].
  match goal with
  | |- context [bind (list_available_models P') ?k] =>
      destruct (bind (list_available_models P') k) as [t o]
  end.
  exists t, o. split; reflexivity.
Qed.

(** *** [setup_gemini] and [main] *)

(** X1.  An empty [GOOGLE_API_KEY] is handled like a missing one: both
    scripts print their guidance lines and return without calling the
    client. *)
Theorem X1_empty_key_is_missing P :
  environ P "GOOGLE_API_KEY" = Some "" ->
  main str_finish_reason P =
    ((banner ++
      [Print "⚠️  GOOGLE_API_KEY not found in environment!";
       Print "Get your key from: https://aistudio.google.com/app/apikey";
       Print "Then run: export GOOGLE_API_KEY='your-key-here'"])%list,
     Returned tt) /\
  check_models_main P =
    ([Print "❌ GOOGLE_API_KEY not found in environment!";
      Print "Set it with: export GOOGLE_API_KEY='your-key-here'"],
     Returned tt).
Proof.
  intros HE. split.
  - apply main_without_model, setup_without_key.
    unfold has_api_key. rewrite HE. discriminate.
  - unfold check_models_main. rewrite HE. reflexivity.
Qed.

(** X2.  [setup_gemini] never raises, whatever the environment and the
    listing call answer: a failed listing is absorbed by the lister, and
    [working_models[0]] is only read from a non-empty list. *)
Theorem X2_setup_never_raises P :
  exists o, result (setup_gemini P) = Returned o.
Proof.
  destruct (truthy_opt_str (environ P "GOOGLE_API_KEY")) eqn:HK.
  - destruct (list_models P) as [models | e] eqn:HL.
    + eexists. apply (setup_result P models HK HL).
    + eexists. now rewrite (setup_listing_raised P e HK HL).
  - eexists. rewrite setup_without_key; [reflexivity |].
    unfold has_api_key. congruence.
Qed.

(** X3.  The calls [main] makes into the client follow one fixed order and
    are never repeated: none at all, or [configure] and one listing, or
    these followed by the construction of one model and one
    generate-content call for that model with the fixed question. *)
Theorem X3_main_call_protocol P :
  calls (trace (main str_finish_reason P)) = [] \/
  calls (trace (main str_finish_reason P))
  = [Configure (api_key_of P); ListModels] \/
  exists n,
    calls (trace (main str_finish_reason P))
    = [Configure (api_key_of P); ListModels; NewModel n;
       GenerateContent n question].
Proof.
  destruct (truthy_opt_str (environ P "GOOGLE_API_KEY")) eqn:HK.
  - destruct (list_models P) as [models | e] eqn:HL.
    + destruct (setup_selects P models HK HL) as [t [Hrun Hcalls]].
      rewrite (main_calls str_finish_reason P _ _ Hrun), Hcalls.
      destruct (selected_name models) as [n |].
      * right. right. exists n. reflexivity.
      * right. left. reflexivity.
    + right. left.
      rewrite (main_calls str_finish_reason P _ _
                 (setup_listing_raised P e HK HL)).
      now rewrite (lister_raised P e HL).
  - left.
    assert (HN : ~ has_api_key P) by (unfold has_api_key; congruence).
    now rewrite (main_calls str_finish_reason P _ _ (setup_without_key P HN)).
Qed.

(** X4.  When [setup_gemini] gives a model and the provider answers with a
    response that has at least one candidate and whose text accessor gives
    a text, [main] returns and its output ends with the six closing
    lines. *)
Theorem X4_main_completes P (model : GenerativeModel)
        (r : @Response FinishReason SafetyRating) (response_text : string) :
  result (setup_gemini P) = Returned (Some model) ->
  generate_content P (model_name model) question = Returned r ->
  candidates r <> [] ->
  text r = Returned response_text ->
  result (main str_finish_reason P) = Returned tt /\
  exists t, trace (main str_finish_reason P) = (t ++ closing)%list.
Proof.
  intros HS HG HC HT. destruct (setup_gemini P) as [t o] eqn:HR.
  cbn [result snd] in HS. subst o.
  rewrite (main_generate_returned P t model r HR HG).
  rewrite (display_returns r response_text HC HT).
  cbn [result trace fst snd]. split; [reflexivity |].
  eexists. rewrite !app_assoc. reflexivity.
Qed.

(** X5.  When the provider answers with a response whose text accessor
    raises, the exception leaves [main]: the run stops after the response
    heading, and neither a text, nor the metadata, nor the closing lines are
    printed. *)
Theorem X5_main_text_unavailable P (model : GenerativeModel)
        (r : @Response FinishReason SafetyRating) (e : Exn) :
  result (setup_gemini P) = Returned (Some model) ->
  generate_content P (model_name model) question = Returned r ->
  text r = Raised e ->
  result (main str_finish_reason P) = Raised e /\
  trace (main str_finish_reason P) =
    (banner ++ trace (setup_gemini P) ++
     [Print ("📤 Sending question: " ++ question ++ nl);
      GenerateContent (model_name model) question;
      Print (str_mul "=" 70); Print "📥 GEMINI RESPONSE:";
      Print (str_mul "=" 70)])%list.
Proof.
  intros HS HG HT. destruct (setup_gemini P) as [t o] eqn:HR.
  cbn [result snd] in HS. subst o.
  rewrite (main_generate_returned P t model r HR HG).
  rewrite (display_text_raised r e HT).
  cbn [result trace fst snd app]. split; reflexivity.
Qed.

(** X6.  Whenever the generate-content call returns a response whose text
    accessor gives a text, [main] prints that text. *)
Theorem X6_response_text_is_printed P (model : GenerativeModel)
        (r : @Response FinishReason SafetyRating) (response_text : string) :
  result (setup_gemini P) = Returned (Some model) ->
  generate_content P (model_name model) question = Returned r ->
  text r = Returned response_text ->
  In (Print response_text) (trace (main str_finish_reason P)).
Proof.
  intros HS HG HT. destruct (setup_gemini P) as [t o] eqn:HR.
  cbn [result snd] in HS. subst o.
  rewrite (main_generate_returned P t model r HR HG). cbn [trace fst].
  apply in_or_app. right. apply in_or_app. right.
  apply in_or_app. right. apply in_or_app. left.
  now apply display_prints_text.
Qed.

(** X7.  Only the presence of the credential matters to a run of [main],
    not its value: two runs with (possibly different) non-empty keys and
    the same provider answers have the same outcome, print the same lines,
    and make the same calls after [configure]. *)
Theorem X7_key_value_not_observable P P' :
  has_api_key P -> has_api_key P' ->
  list_models P = list_models P' ->
  generate_content P = generate_content P' ->
  result (main str_finish_reason P) = result (main str_finish_reason P') /\
  prints (trace (main str_finish_reason P))
  = prints (trace (main str_finish_reason P')) /\
  tl (calls (trace (main str_finish_reason P)))
  = tl (calls (trace (main str_finish_reason P'))).
Proof.
  intros HK HK' HL HG.
  destruct (setup_after_configure P P' HK HK' HL) as [t [o [HS HS']]].
  unfold main, ask_question. cbv [bind print emit ret call].
  rewrite HS, HS', HG.
  destruct o as [[model |] | e]; cbn [trace result fst snd app].
  - destruct (generate_content P' (model_name model) question) as [r | e].
    + destruct (display_response str_finish_reason r) as [td [[] | e]];
        cbn [trace result fst snd app]; repeat split.
    + repeat split.
  - repeat split.
  - repeat split.
Qed.

(** X8.  With a credential and a successful listing, [setup_gemini] returns
    a model exactly when some listed model supports generateContent. *)
Theorem X8_model_iff_capable P (models : list Model) :
  has_api_key P ->
  list_models P = Returned models ->
  ((exists model, result (setup_gemini P) = Returned (Some model)) <->
   (exists d, In d models /\ supports_generate d = true)).
Proof.
  intros HK HL. rewrite (setup_result P models HK HL). split.
  - intros [model H]. destruct (selected_name models) as [n |] eqn:HS;
      [| discriminate].
    apply selected_name_capable, working_models_In in HS.
    destruct HS as [d [Hd [Hs _]]]. now exists d.
  - intros [d [Hd Hs]].
    assert (HIn : In (name d) (working_models_of models))
      by (apply working_models_In; now exists d).
    unfold selected_name.
    destruct (working_models_of models) as [| first rest]; [destruct HIn |].
    destruct (first_preferred preferred_models (first :: rest));
      eexists; reflexivity.
Qed.

(** X9.  Models that do not support generateContent never influence the
    choice: two listings with the same names of capable models, in the same
    order, give the same result, wherever incapable models are listed in
    between. *)
Theorem X9_incapable_models_ignored P P' (l l' : list Model) :
  has_api_key P -> has_api_key P' ->
  list_models P = Returned l -> list_models P' = Returned l' ->
  map name (filter supports_generate l) = map name (filter supports_generate l') ->
  result (setup_gemini P) = result (setup_gemini P').
Proof.
  intros HK HK' HL HL' HF.
  rewrite (setup_result P l HK HL), (setup_result P' l' HK' HL').
  unfold selected_name. rewrite !working_models_filter. now rewrite HF.
Qed.

(** *** [check_models.py] and the listing *)

(** The loop of check_models.py prints the report of every model in
    listing order, and appends to [generate_models] the names of the capable
    models in listing order. *)
Lemma check_models_loop_run (models : list Model) (acc : list string) :
  check_models_loop models acc
  = (flat_map model_report models,
     Returned (acc ++ map name (filter supports_generate models))%list).
Proof.
  revert acc. induction models as [| m models IH]; intros acc.
  - cbn. now rewrite app_nil_r.
  - cbn [check_models_loop filter map flat_map].
    rewrite (IH (if supports_generate m then (acc ++ [name m])%list else acc)).
    cbv [bind print emit model_report]. cbn [app].
    f_equal. f_equal. destruct (supports_generate m); [| reflexivity].
    cbn [map]. now rewrite <- app_assoc.
Qed.

Lemma model_reports_only_print (models : list Model) :
  calls (flat_map model_report models) = [].
Proof.
  induction models as [| m models IH]; [reflexivity |].
  cbn [flat_map]. rewrite calls_app, IH. reflexivity.
Qed.

Lemma for_each_print_map {A : Type} (f : A -> string) (l : list A) :
  for_each l (fun x => print (f x)) = (map (fun x => Print (f x)) l, Returned tt).
Proof.
  induction l as [| x l IH]; [reflexivity |].
  cbn [for_each map]. unfold bind. rewrite IH. reflexivity.
Qed.

(** An event of one iteration is an event of the loop, when the body
    returns. *)
Lemma for_each_In {A : Type} (l : list A) (body : A -> M unit) (x : A) (e : Event) :
  (forall y, result (body y) = Returned tt) ->
  In x l -> In e (trace (body x)) -> In e (trace (for_each l body)).
Proof.
  intros Hret. induction l as [| y l IH]; intros HIn He; [destruct HIn |].
  cbn [for_each]. unfold bind. specialize (Hret y).
  destruct (body y) as [ty oy] eqn:Hy. cbn [result snd] in Hret. subst oy.
  destruct (for_each l body) as [tl ol] eqn:Hl. cbn [trace fst] in *.
  apply in_or_app. destruct HIn as [-> | HIn].
  - left. now rewrite Hy in He.
  - right. now apply IH.
Qed.

(** X10.  Both scripts agree on which models are usable: the loop of
    check_models.py collects exactly the list [setup_gemini] chooses from,
    the names of the models supporting generateContent in listing order. *)
Theorem X10_scripts_agree_on_usable_models (models : list Model) :
  result (check_models_loop models []) = Returned (working_models_of models) /\
  working_models_of models = map name (filter supports_generate models).
Proof.
  rewrite check_models_loop_run, working_models_filter. split; reflexivity.
Qed.

(** X11.  With a credential and a successful listing, check_models.py
    prints, in this order: its heading, for every listed model the five
    lines of its report, the list of usable names (or the line saying there
    is none), the number of listed models and the number of usable ones. *)
Theorem X11_check_models_report P (models : list Model) :
  has_api_key P ->
  list_models P = Returned models ->
  check_models_main P =
    (([Configure (api_key_of P);
       Print ("🔍 Fetching available models for your API key..." ++ nl);
       ListModels;
       Print "📋 AVAILABLE MODELS:";
       Print (str_mul "=" 80)] ++
      flat_map
        (fun model =>
           [Print ("Model Name: " ++ name model);
            Print ("Display Name: " ++ display_name model);
            Print ("Supports generateContent: " ++
                   if supports_generate model then "✓ YES" else "✗ NO");
            Print ("All Methods: " ++
                   String.concat ", " (supported_generation_methods model));
            Print (str_mul "-" 80)])
        models ++
      [Print (nl ++ "🎯 MODELS YOU CAN USE (support generateContent):")] ++
      match map name (filter supports_generate models) with
      | [] => [Print "  ❌ No models support generateContent!"]
      | usable => map (fun n => Print ("  ✓ " ++ n)) usable
      end ++
      [Print (nl ++ "Total models available: " ++ str_nat (length models));
       Print ("Models supporting generateContent: " ++
              str_nat (length (filter supports_generate models)))])%list,
     Returned tt).
Proof.
  unfold has_api_key, check_models_main, api_key_of. intros HK HL.
  rewrite HK, HL. cbn [negb].
  pose proof (check_models_loop_run models []) as Hl. cbn [app] in Hl.
  change (flat_map _ models) with (flat_map model_report models).
  rewrite <- (length_map name (filter supports_generate models)).
  destruct (map name (filter supports_generate models)) as [| n usable].
  - cbv [bind try_except call print emit ret truthy_list]. rewrite Hl.
    cbn [app]. rewrite ?app_nil_r, <- ?app_assoc. reflexivity.
  - pose proof (for_each_print_map (fun model_name => "  ✓ " ++ model_name)
                  (n :: usable)) as HF.
    cbv [print emit] in HF.
    cbv [bind try_except call print emit ret truthy_list]. rewrite Hl, HF.
    cbn [app]. rewrite ?app_nil_r, <- ?app_assoc. reflexivity.
Qed.

(** X12.  check_models.py never lets an exception out: when the listing
    call raises, it prints the error with the provider's message and the
    three hints, and returns. *)
Theorem X12_check_models_listing_error P (e : Exn) :
  has_api_key P ->
  list_models P = Raised e ->
  check_models_main P =
    ([Configure (api_key_of P);
      Print ("🔍 Fetching available models for your API key..." ++ nl);
      ListModels;
      Print ("❌ Error: " ++ exn_message e);
      Print (nl ++ "Possible issues:");
      Print "  - Invalid API key";
      Print "  - Network connectivity";
      Print "  - API quota exceeded"],
     Returned tt).
Proof.
  unfold has_api_key, check_models_main, api_key_of. intros HK HL.
  rewrite HK, HL. reflexivity.
Qed.

(** X13.  Whatever the environment and the provider answer,
    check_models.py returns normally, makes at most the [configure] call
    and one listing call, and never builds a model or sends a prompt. *)
Theorem X13_check_models_always_returns P :
  result (check_models_main P) = Returned tt /\
  (calls (trace (check_models_main P)) = [] \/
   calls (trace (check_models_main P)) = [Configure (api_key_of P); ListModels]).
Proof.
  unfold check_models_main, api_key_of.
  destruct (truthy_opt_str (environ P "GOOGLE_API_KEY")) eqn:HK; cbn [negb].
  - destruct (list_models P) as [models | e] eqn:HL.
    + pose proof (check_models_loop_run models []) as Hl.
      pose proof (model_reports_only_print models) as Ht.
      cbn [app] in Hl.
      assert (HU : forall l : list string,
                 calls (map (fun x => Print ("  ✓ " ++ x)) l) = []).
      { intros l. induction l as [| x l IH]; [reflexivity | exact IH]. }
      cbv [bind try_except call print emit ret]. rewrite Hl.
      destruct (map name (filter supports_generate models)) as [| n usable].
      * cbn [truthy_list result trace fst snd app].
        split; [reflexivity | right]. count_calls. now rewrite Ht.
      * pose proof (for_each_print_map (fun model_name => "  ✓ " ++ model_name)
                      (n :: usable)) as HF.
        cbv [print emit] in HF. cbn [truthy_list]. rewrite HF.
        cbn [result trace fst snd app].
        split; [reflexivity | right]. count_calls. now rewrite HU, Ht.
    + split; [reflexivity | right; reflexivity].
  - split; [reflexivity | left; reflexivity].
Qed.

(** X14.  [list_available_models] reports every listed model: its name,
    its display name, whether it supports generateContent, and its
    methods joined by a comma and a space. *)
Theorem X14_lister_reports_every_model P (models : list Model) (m : Model) :
  list_models P = Returned models ->
  In m models ->
  In (Print ("Model: " ++ name m)) (trace (list_available_models P)) /\
  In (Print ("  Display Name: " ++ display_name m))
     (trace (list_available_models P)) /\
  In (Print ("  Status: " ++
             if supports_generate m then "✓ Supports generateContent"
             else "✗ No generateContent"))
     (trace (list_available_models P)) /\
  In (Print ("  Methods: " ++
             String.concat ", " (supported_generation_methods m)))
     (trace (list_available_models P)).
Proof.
  intros HL Hm. unfold list_available_models. rewrite HL.
  cbv [try_except bind call print emit ret].
  match goal with
  | |- context [for_each models ?b] =>
      pose proof (fun e => for_each_In models b m e (fun y => eq_refl) Hm) as HIn;
      destruct (for_each models b) as [t [[] | e]]
  end; cbn [trace fst app] in *;
    repeat split; do 4 right; apply in_or_app; left; apply HIn; cbn; tauto.
Qed.

End MoreRuns.

(** ** The further properties on concrete runs *)

Lemma X1_witness :
  calls (trace (main str_reason empty_credential)) = [] /\
  calls (trace (check_models_main empty_credential)) = [].
Proof.
  destruct (X1_empty_key_is_missing str_reason empty_credential eq_refl)
    as [HM HC].
  rewrite HM, HC. split; reflexivity.
Defined.

Lemma X4_witness :
  result (main str_reason (account [embed "models/e"; gen "models/a"]))
  = Returned tt.
Proof.
  apply (X4_main_completes str_reason
           (account [embed "models/e"; gen "models/a"])
           (mkGenerativeModel "models/a")
           (mkResponse (Returned "An agent acts.")
              [mkCandidate STOP [tt; tt; tt; tt]])
           "An agent acts." eq_refl eq_refl).
  - discriminate.
  - reflexivity.
Defined.

Lemma X5_witness :
  result (main str_reason (hollow [gen "models/a"]))
  = Raised (ValueError "response.text requires a valid Part").
Proof.
  apply (X5_main_text_unavailable str_reason (hollow [gen "models/a"])
           (mkGenerativeModel "models/a") blocked
           (ValueError "response.text requires a valid Part")
           eq_refl eq_refl eq_refl).
Defined.

Lemma X6_witness :
  In (Print "An agent acts.")
     (trace (main str_reason (account [embed "models/e"; gen "models/a"]))).
Proof.
  apply (X6_response_text_is_printed str_reason
           (account [embed "models/e"; gen "models/a"])
           (mkGenerativeModel "models/a")
           (mkResponse (Returned "An agent acts.")
              [mkCandidate STOP [tt; tt; tt; tt]])
           "An agent acts." eq_refl eq_refl eq_refl).
Defined.

Lemma X7_witness :
  prints (trace (main str_reason (account [gen "models/a"])))
  = prints (trace (main str_reason (other_key [gen "models/a"]))).
Proof.
  apply (X7_key_value_not_observable str_reason
           (account [gen "models/a"]) (other_key [gen "models/a"])
           eq_refl eq_refl eq_refl eq_refl).
Defined.

Lemma X8_witness :
  exists model,
    result (setup_gemini (account [embed "models/e"; gen "models/a"]))
    = Returned (Some model).
Proof.
  apply (X8_model_iff_capable (account [embed "models/e"; gen "models/a"]) _
           eq_refl eq_refl).
  exists (gen "models/a"). split; [in_list | reflexivity].
Defined.

Lemma X9_witness :
  result (setup_gemini (account [embed "models/e"; gen "models/b"; gen "models/a"]))
  = result (setup_gemini
              (account [gen "models/b"; embed "models/x"; gen "models/a";
                        embed "models/gemini-2.5-flash"])).
Proof.
  apply (X9_incapable_models_ignored
           (account [embed "models/e"; gen "models/b"; gen "models/a"])
           (account [gen "models/b"; embed "models/x"; gen "models/a";
                     embed "models/gemini-2.5-flash"])
           _ _ eq_refl eq_refl eq_refl eq_refl eq_refl).
Defined.

Lemma X11_witness :
  result (check_models_main (account [embed "models/e"; gen "models/a"]))
  = Returned tt /\
  In (Print "Supports generateContent: ✗ NO")
     (trace (check_models_main (account [embed "models/e"; gen "models/a"]))) /\
  last (trace (check_models_main (account [embed "models/e"; gen "models/a"])))
       ListModels
  = Print "Models supporting generateContent: 1".
Proof.
  rewrite (X11_check_models_report
             (account [embed "models/e"; gen "models/a"]) _ eq_refl eq_refl).
  split; [reflexivity |]. split; [vm_compute; in_list | reflexivity].
Defined.

Lemma X12_witness :
  In (Print "❌ Error: 503 unavailable") (trace (check_models_main offline)).
Proof.
  rewrite (X12_check_models_listing_error offline
             (ProviderError "503 unavailable") eq_refl eq_refl).
  cbn. tauto.
Defined.

Lemma X14_witness :
  In (Print "  Status: ✗ No generateContent")
     (trace (list_available_models (account [gen "models/a"; embed "models/e"]))).
Proof.
  apply (X14_lister_reports_every_model
           (account [gen "models/a"; embed "models/e"]) _ (embed "models/e")
           eq_refl).
  in_list.
Defined.
